(** * fogEdge: the soil-monitoring irrigation sketch [iot.cpp]

    A shallow embedding of the Arduino sketch: the configuration
    constants, the [SensorData] record, the irrigation policy
    [shouldIrrigate], the temperature calibration of [readTemperature],
    and the I/O routines [setup], [controlIrrigation], [logSensorData]
    and [loop], run over an explicit model of the board.

    C++ [int] values are modelled as [Z]: the sketch only compares them
    and converts them to [float], it never does integer arithmetic, so
    no wrap-around arises.  C++ [float] values are IEEE 754 binary32
    numbers, modelled with the Standard Library's executable
    specification [SpecFloat] at precision 24 and maximal exponent 128. *)

From Stdlib Require Import ZArith QArith Qabs Qpower Bool List Lia.
From Stdlib Require Import Ascii String.
Import ListNotations.
From Stdlib Require Import Floats.SpecFloat.
From stdpp Require Import gmap.

Local Open Scope Z_scope.

(** ** IEEE 754 arithmetic at a given format *)

(** A binary floating-point format: [prec] mantissa bits (the implicit
    one included) and [emax], the exponent of the infinities. *)
Record format := Format { fprec : Z; femax : Z }.

Definition binary32 : format := Format 24 128.
Definition binary64 : format := Format 53 1024.

Module Float.

(** Well-formed numbers of a format. *)
Definition valid (f : format) (x : spec_float) : bool :=
  valid_binary (fprec f) (femax f) x.

(** Conversion of an integer, rounding to nearest even. *)
Definition of_Z (f : format) (n : Z) : spec_float :=
  binary_normalize (fprec f) (femax f) n 0 false.

(** Conversion between formats (widening is exact, narrowing rounds to
    nearest even). *)
Definition cast (f : format) (x : spec_float) : spec_float :=
  match x with
  | S754_finite s m e => binary_round (fprec f) (femax f) s m e
  | _ => x
  end.

Definition mul (f : format) := SFmul (fprec f) (femax f).
Definition div (f : format) := SFdiv (fprec f) (femax f).
Definition sub (f : format) := SFsub (fprec f) (femax f).

(** The C++ comparisons [x < y] and [x > y]: false when either side is
    not a number. *)
Definition lt (x y : spec_float) : bool := SFltb x y.
Definition gt (x y : spec_float) : bool := SFltb y x.

(** The decimal literal [m * 2^e], for literals that are exact. *)
Definition lit (f : format) (m e : Z) : spec_float :=
  binary_normalize (fprec f) (femax f) m e false.

(** The rational number a finite float denotes ([0] for the others). *)
Definition to_Q (x : spec_float) : Q :=
  match x with
  | S754_finite s m e => (inject_Z (cond_Zopp s (Zpos m)) * 2 ^ e)%Q
  | _ => 0%Q
  end.

Definition is_finite (x : spec_float) : bool :=
  match x with
  | S754_zero _ | S754_finite _ _ _ => true
  | _ => false
  end.

(** [x] denotes a number, or an infinity, strictly above the rational
    [q].  Not-a-number is above nothing. *)
Definition above (x : spec_float) (q : Q) : Prop :=
  match x with
  | S754_nan => False
  | S754_infinity s => s = false
  | _ => (q < to_Q x)%Q
  end.

End Float.

(** The type of C++ [float] values. *)
Abbreviation float := spec_float.

(** ** Configuration constants (iot.cpp, lines 4-20)

    The three analog pin numbers [A0], [A1], [A2] come from the Arduino
    core; they are parameters of the sketch below. *)

Definition WATER_PUMP_PIN : Z := 7.

Definition MOISTURE_THRESHOLD : Z := 300.
Definition GAS_THRESHOLD : Z := 400.
Definition TEMP_THRESHOLD : float := Float.lit binary32 30 0.

Definition VOLTAGE_REF : float := Float.lit binary32 5 0.
Definition ADC_RESOLUTION : Z := 1023.

Definition SAMPLING_INTERVAL : Z := 5000.

(** ** The sensor record (iot.cpp, lines 23-28) *)

Record SensorData := mkSensorData {
  soilMoisture : Z;
  temperature : float;
  gasReading : Z;
  irrigationStatus : bool
}.

(** ** Irrigation policy (iot.cpp, lines 78-89) *)

Definition shouldIrrigate (moisture : Z) (temp : float) (gas : Z) : bool :=
  let lowMoisture := moisture <? MOISTURE_THRESHOLD in
  let highTemperature := Float.gt temp TEMP_THRESHOLD in
  let highGasStress := gas >? GAS_THRESHOLD in
  lowMoisture || (highTemperature && highGasStress).


(** ** Temperature calibration (iot.cpp, lines 59-63)

    The arithmetic of [readTemperature] on the analog code.  In the
    source the code is an [int] that C++ converts to [float] for the
    product; [convert] is the expression after that conversion.

    [VOLTAGE_REF / ADC_RESOLUTION] and the product are [float]
    operations.  The literals [0.5] and [100.0] are [double]s, so the
    subtraction and the last product are done in the format of [double]
    and the result is rounded to [float] by the assignment to
    [temperatureC].  The Arduino core the sketch is compiled against
    fixes that format: binary32 with the AVR toolchain, binary64 on the
    32-bit boards. *)

Section Calibration.

Variable double : format.

Definition convert (code : float) : float :=
  let voltage :=
    Float.mul binary32 code
      (Float.div binary32 VOLTAGE_REF (Float.of_Z binary32 ADC_RESOLUTION)) in
  let temperatureC :=
    Float.cast binary32
      (Float.mul double
         (Float.sub double (Float.cast double voltage) (Float.lit double 1 (-1)))
         (Float.lit double 100 0)) in
  temperatureC.

End Calibration.

(** The formula as the specification writes it, with VOLTAGE_REF = 5 and
    ADC_RESOLUTION = 1023, on exact rational numbers. *)
Definition convert_exact (code : Q) : Q :=
  ((code * (5 / 1023) - (1 # 2)) * 100)%Q.

(** ** The board

    The hardware the Arduino calls act on: the analog inputs, the pin
    directions, the digital output latches, the serial port and the
    clock, together with the chronological record of the calls made. *)

Inductive PinMode := INPUT | OUTPUT.

Inductive Level := LOW | HIGH.

Inductive Event :=
| SerialBegin (baud : Z)
| SetPinMode (pin : Z) (mode : PinMode)
| DigitalWrite (pin : Z) (level : Level)
| AnalogRead (pin : Z) (value : Z)
| SerialWrite (text : string)
| Delay (ms : Z).

Record Board := mkBoard {
  (** what the [n]-th analog conversion since power-up yields on a pin *)
  analogIn : nat -> Z -> Z;
  (** number of conversions done so far *)
  conversions : nat;
  pinModes : gmap Z PinMode;
  pinLevels : gmap Z Level;
  serialBaud : option Z;
  (** every byte written to the serial port so far *)
  serialOut : string;
  (** milliseconds spent in [delay] *)
  elapsed : Z;
  history : list Event
}.

(** Programs over the board. *)
Definition IO (A : Type) : Type := Board -> A * Board.

#[global] Instance io_ret : MRet IO := fun A a b => (a, b).

#[global] Instance io_bind : MBind IO := fun A B k m b =>
  let (a, b') := m b in k a b'.

(** The board after a program, and the value it returns. *)
Definition exec {A : Type} (m : IO A) (b : Board) : Board := snd (m b).
Definition eval {A : Type} (m : IO A) (b : Board) : A := fst (m b).

Definition LF : string := String "010" EmptyString.
Definition CRLF : string := String "013" (String "010" EmptyString).

(** *** The Arduino calls the sketch makes *)

Definition Serial_begin (baud : Z) : IO unit := fun b =>
  (tt, mkBoard (analogIn b) (conversions b) (pinModes b) (pinLevels b)
         (Some baud) (serialOut b) (elapsed b)
         (history b ++ [SerialBegin baud])).

Definition pinMode (pin : Z) (mode : PinMode) : IO unit := fun b =>
  (tt, mkBoard (analogIn b) (conversions b) (<[pin := mode]> (pinModes b))
         (pinLevels b) (serialBaud b) (serialOut b) (elapsed b)
         (history b ++ [SetPinMode pin mode])).

Definition digitalWrite (pin : Z) (level : Level) : IO unit := fun b =>
  (tt, mkBoard (analogIn b) (conversions b) (pinModes b)
         (<[pin := level]> (pinLevels b)) (serialBaud b) (serialOut b)
         (elapsed b) (history b ++ [DigitalWrite pin level])).

Definition analogRead (pin : Z) : IO Z := fun b =>
  let value := analogIn b (conversions b) pin in
  (value, mkBoard (analogIn b) (S (conversions b)) (pinModes b) (pinLevels b)
            (serialBaud b) (serialOut b) (elapsed b)
            (history b ++ [AnalogRead pin value])).

Definition Serial_print (text : string) : IO unit := fun b =>
  (tt, mkBoard (analogIn b) (conversions b) (pinModes b) (pinLevels b)
         (serialBaud b) (serialOut b ++ text)%string (elapsed b)
         (history b ++ [SerialWrite text])).

(** [println] writes the text and the line terminator ["\r\n"]. *)
Definition Serial_println (text : string) : IO unit :=
  Serial_print (text ++ CRLF)%string.

Definition delay (ms : Z) : IO unit := fun b =>
  (tt, mkBoard (analogIn b) (conversions b) (pinModes b) (pinLevels b)
         (serialBaud b) (serialOut b) (elapsed b + ms)
         (history b ++ [Delay ms])).

(** ** The sketch *)

Section Sketch.

(** What the Arduino core provides and [iot.cpp] does not define: the
    numbers of the analog pins, the format of [double], and the decimal
    rendering of [Serial.print] on an [int] and on a [float]. *)
Variables A0 A1 A2 : Z.
Variable double : format.
Variable printInt : Z -> string.
Variable printFloat : float -> string.

Definition SOIL_MOISTURE_PIN : Z := A0.
Definition TEMPERATURE_PIN : Z := A1.
Definition GAS_SENSOR_PIN : Z := A2.

(** iot.cpp, lines 38-54 *)
Definition setup : IO unit :=
  Serial_begin 9600 ;;
  pinMode SOIL_MOISTURE_PIN INPUT ;;
  pinMode TEMPERATURE_PIN INPUT ;;
  pinMode GAS_SENSOR_PIN INPUT ;;
  pinMode WATER_PUMP_PIN OUTPUT ;;
  digitalWrite WATER_PUMP_PIN LOW ;;
  Serial_println "Edge Computing Irrigation Monitoring System" ;;
  Serial_println "-------------------------------------------".

(** iot.cpp, lines 56-66 *)
Definition readTemperature : IO float :=
  tempReading ← analogRead TEMPERATURE_PIN;
  mret (convert double (Float.of_Z binary32 tempReading)).

(** iot.cpp, lines 68-71 *)
Definition readSoilMoisture : IO Z :=
  analogRead SOIL_MOISTURE_PIN.

(** iot.cpp, lines 73-76 *)
Definition readGasSensor : IO Z :=
  analogRead GAS_SENSOR_PIN.

(** iot.cpp, lines 91-99 *)
Definition controlIrrigation (irrigate : bool) : IO unit :=
  if irrigate then
    digitalWrite WATER_PUMP_PIN HIGH ;;
    Serial_println "IRRIGATION ACTIVATED"
  else
    digitalWrite WATER_PUMP_PIN LOW ;;
    Serial_println "No irrigation required".

(** The unit marker of the temperature as the source file spells it: the
    bytes C3 82 C2 B0 and the letter C, that is the degree sign (C2 B0)
    and C after the two bytes C3 82. *)
Definition DEGREE_C : string :=
  String "195" (String "130" (String "194" (String "176" "C"))).

(** iot.cpp, lines 101-112 *)
Definition logSensorData (data : SensorData) : IO unit :=
  Serial_println (LF ++ "--- Sensor Data Log ---") ;;
  Serial_print "Soil Moisture: " ;;
  Serial_print (printInt (soilMoisture data)) ;;
  Serial_print " | Temperature: " ;;
  Serial_print (printFloat (temperature data)) ;;
  Serial_print (DEGREE_C ++ " | Gas Reading: ") ;;
  Serial_print (printInt (gasReading data)) ;;
  Serial_print " | Irrigation Status: " ;;
  Serial_println (if irrigationStatus data then "REQUIRED" else "NOT NEEDED").

(** iot.cpp, lines 114-138 *)
Definition loop : IO unit :=
  soilMoisture ← readSoilMoisture;
  temperature ← readTemperature;
  gasReading ← readGasSensor;
  let irrigationNeeded := shouldIrrigate soilMoisture temperature gasReading in
  let currentData :=
    mkSensorData soilMoisture temperature gasReading irrigationNeeded in
  logSensorData currentData ;;
  controlIrrigation irrigationNeeded ;;
  delay SAMPLING_INTERVAL.

(** The head of [loop] on its own: the three reads and the record built
    from them. *)
Definition sample : IO SensorData :=
  soilMoisture ← readSoilMoisture;
  temperature ← readTemperature;
  gasReading ← readGasSensor;
  mret (mkSensorData soilMoisture temperature gasReading
          (shouldIrrigate soilMoisture temperature gasReading)).

(** [n] runs of a program, one after the other. *)
Fixpoint repeat_io (n : nat) (body : IO unit) : IO unit :=
  match n with
  | O => mret tt
  | S n' => body ;; repeat_io n' body
  end.

(** Modelled from the spec: the entry point of the Arduino core, which
    is not part of [iot.cpp], runs the initialization once and then the
    loop body for ever.  [sketch n] is that program up to the end of the
    [n]-th iteration. *)
Definition sketch (n : nat) : IO unit :=
  setup ;; repeat_io n loop.

End Sketch.

(** ** Auxiliary definitions for the statements *)

(** A board just powered up, in front of the given analog inputs. *)
Definition power_on (inputs : nat -> Z -> Z) : Board :=
  mkBoard inputs 0 ∅ ∅ None EmptyString 0 [].

(** The float [x] is a finite number within [tol] of the rational [q]. *)
Definition close_to (tol : Q) (x : float) (q : Q) : Prop :=
  Float.is_finite x = true /\ (Qabs (Float.to_Q x - q) <= tol)%Q.

Definition close_tob (tol : Q) (x : float) (q : Q) : bool :=
  Float.is_finite x && Qle_bool (Qabs (Float.to_Q x - q)) tol.

(** The [float] nearest to the decimal 102.3. *)
Definition code_102_3 : float :=
  Float.div binary32 (Float.of_Z binary32 1023) (Float.of_Z binary32 10).

(** Every code a 10-bit converter can return. *)
Definition adc_codes : list Z := map Z.of_nat (seq 0 1024).

(** The check made on each code: the computed temperature is a
    well-formed float within 1/20000 of the exact formula. *)
Definition calibration_ok (double : format) (code : Z) : bool :=
  let t := convert double (Float.of_Z binary32 code) in
  Float.valid binary32 t
  && close_tob (1 # 20000) t (convert_exact (inject_Z code)).

(** The status line [controlIrrigation] prints, and the level it puts
    on the pump pin. *)
Definition status_line (irrigate : bool) : string :=
  ((if irrigate then "IRRIGATION ACTIVATED" else "No irrigation required")
   ++ CRLF)%string.

Definition pump_level (irrigate : bool) : Level :=
  if irrigate then HIGH else LOW.

(** The header line and the data line [logSensorData] prints for a
    record; the header comes after a line feed. *)
Definition log_header : string := ("--- Sensor Data Log ---" ++ CRLF)%string.

Section Expected.

Variables A0 A1 A2 : Z.
Variable double : format.
Variable printInt : Z -> string.
Variable printFloat : float -> string.

Definition log_line (data : SensorData) : string :=
  ("Soil Moisture: " ++ printInt (soilMoisture data)
   ++ " | Temperature: " ++ printFloat (temperature data) ++ DEGREE_C
   ++ " | Gas Reading: " ++ printInt (gasReading data)
   ++ " | Irrigation Status: "
   ++ (if irrigationStatus data then "REQUIRED" else "NOT NEEDED")
   ++ CRLF)%string.

(** The calls of [setup], in order. *)
Definition setup_events : list Event :=
  [ SerialBegin 9600;
    SetPinMode A0 INPUT; SetPinMode A1 INPUT; SetPinMode A2 INPUT;
    SetPinMode WATER_PUMP_PIN OUTPUT;
    DigitalWrite WATER_PUMP_PIN LOW;
    SerialWrite ("Edge Computing Irrigation Monitoring System" ++ CRLF);
    SerialWrite ("-------------------------------------------" ++ CRLF) ].

(** The calls only the initialization makes. *)
Definition is_setup_call (e : Event) : bool :=
  match e with
  | SerialBegin _ | SetPinMode _ _ => true
  | _ => false
  end.

(** The calls of [logSensorData], in order. *)
Definition log_events (data : SensorData) : list Event :=
  [ SerialWrite (LF ++ log_header);
    SerialWrite "Soil Moisture: ";
    SerialWrite (printInt (soilMoisture data));
    SerialWrite " | Temperature: ";
    SerialWrite (printFloat (temperature data));
    SerialWrite (DEGREE_C ++ " | Gas Reading: ");
    SerialWrite (printInt (gasReading data));
    SerialWrite " | Irrigation Status: ";
    SerialWrite ((if irrigationStatus data then "REQUIRED" else "NOT NEEDED")
                 ++ CRLF) ].

(** The record of the iteration whose first conversion is the [k]-th:
    the three codes the inputs yield, the temperature converted, and
    the decision of the policy on them. *)
Definition snapshot (inputs : nat -> Z -> Z) (k : nat) : SensorData :=
  let moisture := inputs k A0 in
  let temp := convert double (Float.of_Z binary32 (inputs (S k) A1)) in
  let gas := inputs (S (S k)) A2 in
  mkSensorData moisture temp gas (shouldIrrigate moisture temp gas).

(** The calls of one iteration of [loop], in order: the three reads, the
    log of the record, the pump and its status line, the wait. *)
Definition cycle_events (inputs : nat -> Z -> Z) (k : nat) : list Event :=
  let data := snapshot inputs k in
  [ AnalogRead A0 (inputs k A0);
    AnalogRead A1 (inputs (S k) A1);
    AnalogRead A2 (inputs (S (S k)) A2) ]
  ++ log_events data
  ++ [ DigitalWrite WATER_PUMP_PIN (pump_level (irrigationStatus data));
       SerialWrite (status_line (irrigationStatus data));
       Delay SAMPLING_INTERVAL ].

(** The calls of the first [n] iterations, the first of which starts at
    conversion [k]: each iteration makes three conversions. *)
Definition cycles (inputs : nat -> Z -> Z) (k n : nat) : list Event :=
  concat (map (fun i => cycle_events inputs (k + 3 * i)%nat) (seq 0 n)).

End Expected.

(** ** Definitions for the properties of the calibration and of the run *)

(** The temperature [readTemperature] returns for an analog code. *)
Definition temperature_of (double : format) (code : Z) : float :=
  convert double (Float.of_Z binary32 code).

(** The least analog code whose temperature is above TEMP_THRESHOLD. *)
Definition HOT_CODE : Z := 164.

(** The checks made on each code: the next code gives a higher
    temperature, and the temperature is above the threshold exactly from
    [HOT_CODE] on. *)
Definition step_ok (double : format) (code : Z) : bool :=
  Float.lt (temperature_of double code) (temperature_of double (code + 1)).

Definition threshold_ok (double : format) (code : Z) : bool :=
  Bool.eqb (Float.gt (temperature_of double code) TEMP_THRESHOLD)
    (HOT_CODE <=? code).

(** The check that the two formats of [double] give temperatures within
    2^-18 of a degree of each other on a code. *)
Definition platforms_ok (code : Z) : bool :=
  Qle_bool
    (Qabs (Float.to_Q (temperature_of binary32 code)
           - Float.to_Q (temperature_of binary64 code)))
    (1 # 262144).

(** The two lines [setup] prints. *)
Definition banner : string :=
  ("Edge Computing Irrigation Monitoring System" ++ CRLF
   ++ "-------------------------------------------" ++ CRLF)%string.

(** The texts of a list, one after the other. *)
Definition cat_all (texts : list string) : string :=
  fold_right String.append EmptyString texts.

Section ExpectedText.

Variables A0 A1 A2 : Z.
Variable double : format.
Variable printInt : Z -> string.
Variable printFloat : float -> string.

(** What the iteration whose first conversion is the [k]-th prints. *)
Definition cycle_text (inputs : nat -> Z -> Z) (k : nat) : string :=
  let data := snapshot A0 A1 A2 double inputs k in
  (LF ++ log_header ++ log_line printInt printFloat data
   ++ status_line (irrigationStatus data))%string.

End ExpectedText.

(** * Properties *)

(** ** The order computed by the float comparison *)

Lemma digits2_pos_size (p : positive) : digits2_pos p = Pos.size p.
Proof. induction p as [p IH | p IH |]; simpl; congruence. Qed.

Lemma digits_upper (m : positive) : Zpos m < 2 ^ Zpos (digits2_pos m).
Proof.
  rewrite digits2_pos_size.
  change 2 with (Zpos 2). rewrite <- Pos2Z.inj_pow.
  apply Pos2Z.pos_lt_pos, Pos.size_gt.
Qed.

Lemma digits_lower (m : positive) : 2 ^ Zpos (digits2_pos m) <= 2 * Zpos m.
Proof.
  rewrite digits2_pos_size.
  change 2 with (Zpos 2) at 1. rewrite <- Pos2Z.inj_pow.
  change (2 * Zpos m) with (Zpos m~0).
  apply Pos2Z.pos_le_pos, Pos.size_le.
Qed.

Section Comparison.

Variable f : format.

(** Of two well-formed positive numbers, the one with the smaller
    exponent is the smaller number. *)
Lemma bounded_exponent_lt (m1 m2 : positive) (e1 e2 : Z) :
  bounded (fprec f) (femax f) m1 e1 = true ->
  bounded (fprec f) (femax f) m2 e2 = true ->
  e1 < e2 ->
  Zpos m1 < Zpos m2 * 2 ^ (e2 - e1).
Proof.
  unfold bounded, canonical_mantissa, fexp.
  intros [C1 _]%andb_prop [C2 _]%andb_prop Hlt.
  apply Z.eqb_eq in C1, C2.
  pose proof (digits_upper m1) as U1.
  pose proof (digits_lower m2) as L2.
  set (d1 := Zpos (digits2_pos m1)) in *.
  set (d2 := Zpos (digits2_pos m2)) in *.
  set (p := fprec f) in *.
  assert (Hd1 : d1 <= p) by lia.
  assert (Hd2 : d2 = p) by lia.
  assert (Hp : 0 < p) by (subst d2; lia).
  assert (H1 : 2 ^ d1 <= 2 ^ p) by (apply Z.pow_le_mono_r; lia).
  assert (H2 : 2 ^ 1 <= 2 ^ (e2 - e1)) by (apply Z.pow_le_mono_r; lia).
  rewrite Hd2 in L2. change (2 ^ 1) with 2 in H2.
  nia.
Qed.

(** A finite number written at any smaller exponent [k]. *)
Lemma to_Q_scaled (s : bool) (m : positive) (e k : Z) :
  k <= e ->
  (Float.to_Q (S754_finite s m e)
   == inject_Z (cond_Zopp s (Zpos m) * 2 ^ (e - k)) * 2 ^ k)%Q.
Proof.
  intros Hk. unfold Float.to_Q.
  replace e with ((e - k) + k) at 1 by lia.
  rewrite Qpower_plus by discriminate.
  rewrite inject_Z_mult, Zpower_Qpower by lia.
  change (inject_Z 2) with 2%Q. ring.
Qed.

Lemma Qpower_2_pos (k : Z) : (0 < 2 ^ k)%Q.
Proof. apply Qpower_0_lt. reflexivity. Qed.

Lemma to_Q_sign (s : bool) (m : positive) (e : Z) :
  if s then (Float.to_Q (S754_finite s m e) < 0)%Q
  else (0 < Float.to_Q (S754_finite s m e))%Q.
Proof.
  pose proof (Qpower_2_pos e) as Hp. unfold Float.to_Q.
  destruct s; simpl cond_Zopp.
  - assert (H : (inject_Z (Zneg m) * 2 ^ e < 0 * 2 ^ e)%Q)
      by (apply Qmult_lt_compat_r; [exact Hp | reflexivity]).
    now rewrite Qmult_0_l in H.
  - assert (H : (0 * 2 ^ e < inject_Z (Zpos m) * 2 ^ e)%Q)
      by (apply Qmult_lt_compat_r; [exact Hp | reflexivity]).
    now rewrite Qmult_0_l in H.
Qed.

(** Positive well-formed numbers: the comparison of exponents, then of
    mantissas, is the comparison of the numbers. *)
Lemma compare_magnitude (m1 m2 : positive) (e1 e2 : Z) :
  bounded (fprec f) (femax f) m1 e1 = true ->
  bounded (fprec f) (femax f) m2 e2 = true ->
  match e1 ?= e2 with
  | Lt => Lt
  | Gt => Gt
  | Eq => Pos.compare_cont Eq m1 m2
  end = Lt <->
  (Float.to_Q (S754_finite false m1 e1) < Float.to_Q (S754_finite false m2 e2))%Q.
Proof.
  intros B1 B2.
  destruct (Z.compare_spec e1 e2) as [He | He | He].
  - subst e2. change (Pos.compare_cont Eq m1 m2) with (Pos.compare m1 m2).
    rewrite Pos.compare_lt_iff. unfold Float.to_Q. simpl cond_Zopp.
    split; intros H.
    + apply Qmult_lt_compat_r; [apply Qpower_2_pos |].
      rewrite <- Zlt_Qlt. exact H.
    + apply Qmult_lt_r in H; [| apply Qpower_2_pos].
      rewrite <- Zlt_Qlt in H. exact H.
  - split; [intros _ | reflexivity].
    rewrite (to_Q_scaled false m1 e1 e1), (to_Q_scaled false m2 e2 e1) by lia.
    apply Qmult_lt_compat_r; [apply Qpower_2_pos |].
    rewrite <- Zlt_Qlt. simpl cond_Zopp.
    rewrite Z.sub_diag, Z.pow_0_r, Z.mul_1_r.
    now apply bounded_exponent_lt.
  - split; [discriminate | intros H; exfalso].
    rewrite (to_Q_scaled false m1 e1 e2), (to_Q_scaled false m2 e2 e2) in H by lia.
    apply Qmult_lt_r in H; [| apply Qpower_2_pos].
    rewrite <- Zlt_Qlt in H. simpl cond_Zopp in H.
    rewrite Z.sub_diag, Z.pow_0_r, Z.mul_1_r in H.
    pose proof (bounded_exponent_lt m2 m1 e2 e1 B2 B1 He). lia.
Qed.

Lemma to_Q_opp (m : positive) (e : Z) :
  (Float.to_Q (S754_finite true m e) == - Float.to_Q (S754_finite false m e))%Q.
Proof.
  unfold Float.to_Q. simpl cond_Zopp.
  rewrite inject_Z_opp.
  generalize (2 ^ e)%Q (inject_Z (Z.pos m)). intros a b. ring.
Qed.

Lemma Qopp_lt_iff (p q : Q) : (p < q <-> - q < - p)%Q.
Proof.
  split; [apply Qopp_lt_compat |].
  intros H. apply Qopp_lt_compat in H. now rewrite !Qopp_opp in H.
Qed.

(** Same thing for two negative numbers, where the order is reversed. *)
Lemma compare_magnitude_neg (m1 m2 : positive) (e1 e2 : Z) :
  bounded (fprec f) (femax f) m1 e1 = true ->
  bounded (fprec f) (femax f) m2 e2 = true ->
  match e1 ?= e2 with
  | Lt => Gt
  | Gt => Lt
  | Eq => CompOpp (Pos.compare_cont Eq m1 m2)
  end = Lt <->
  (Float.to_Q (S754_finite true m1 e1) < Float.to_Q (S754_finite true m2 e2))%Q.
Proof.
  intros B1 B2. rewrite !to_Q_opp, <- Qopp_lt_iff.
  rewrite <- (compare_magnitude m2 m1 e2 e1 B2 B1).
  rewrite (Z.compare_antisym e1 e2).
  change (Pos.compare_cont Eq m2 m1) with (Pos.compare m2 m1).
  rewrite (Pos.compare_antisym m1 m2).
  change (Pos.compare_cont Eq m1 m2) with (Pos.compare m1 m2).
  destruct (e1 ?= e2); simpl; tauto.
Qed.

(** The C++ [<] on two finite floats is the order of the numbers they
    denote. *)
Lemma lt_finite_correct (x y : float) :
  Float.valid f x = true -> Float.valid f y = true ->
  Float.is_finite x = true -> Float.is_finite y = true ->
  Float.lt x y = true <-> (Float.to_Q x < Float.to_Q y)%Q.
Proof.
  unfold Float.valid, Float.lt, SFltb.
  destruct x as [sx | sx | | sx mx ex], y as [sy | sy | | sy my ey];
    try discriminate; intros Vx Vy _ _; simpl in Vx, Vy.
  - simpl. split; [discriminate | intros H; now apply Qlt_irrefl in H].
  - pose proof (to_Q_sign sy my ey) as Hs.
    destruct sy; simpl SFcompare; cbv iota;
      change (Float.to_Q (S754_zero sx)) with 0%Q.
    + split; [discriminate | intros H; exfalso].
      exact (Qlt_irrefl _ (Qlt_trans _ _ _ H Hs)).
    + tauto.
  - pose proof (to_Q_sign sx mx ex) as Hs.
    destruct sx; simpl SFcompare; cbv iota;
      change (Float.to_Q (S754_zero sy)) with 0%Q.
    + tauto.
    + split; [discriminate | intros H; exfalso].
      exact (Qlt_irrefl _ (Qlt_trans _ _ _ H Hs)).
  - pose proof (to_Q_sign sx mx ex) as Hx.
    pose proof (to_Q_sign sy my ey) as Hy.
    destruct sx, sy; simpl SFcompare.
    + destruct (compare_magnitude_neg mx my ex ey Vx Vy) as [A B].
      split; intros H.
      * apply A. now destruct (match ex ?= ey with Lt => _ | _ => _ end).
      * rewrite (B H). reflexivity.
    + split; [intros _ | reflexivity].
      exact (Qlt_trans _ _ _ Hx Hy).
    + split; [discriminate | intros H; exfalso].
      exact (Qlt_irrefl _ (Qlt_trans _ _ _ Hx (Qlt_trans _ _ _ H Hy))).
    + destruct (compare_magnitude mx my ex ey Vx Vy) as [A B].
      split; intros H.
      * apply A. now destruct (match ex ?= ey with Lt => _ | _ => _ end).
      * rewrite (B H). reflexivity.
Qed.

(** The C++ [x > y] against a finite [y]: [x] is above the number [y]
    denotes. *)
Lemma gt_above (x y : float) :
  Float.valid f x = true -> Float.valid f y = true ->
  Float.is_finite y = true ->
  Float.gt x y = true <-> Float.above x (Float.to_Q y).
Proof.
  intros Vx Vy Fy.
  destruct x as [sx | sx | | sx mx ex].
  - apply (lt_finite_correct y (S754_zero sx)); auto.
  - unfold Float.gt, SFltb, Float.above.
    destruct y as [sy | sy | | sy my ey]; try discriminate;
      destruct sx; simpl; intuition congruence.
  - unfold Float.gt, SFltb, Float.above.
    destruct y; simpl; intuition congruence.
  - apply (lt_finite_correct y (S754_finite sx mx ex)); auto.
Qed.

End Comparison.

Lemma above_compat (x : float) (q q' : Q) :
  (q == q')%Q -> Float.above x q <-> Float.above x q'.
Proof.
  intros E. destruct x; simpl; try tauto; now rewrite E.
Qed.

Lemma TEMP_THRESHOLD_value : (Float.to_Q TEMP_THRESHOLD == 30)%Q.
Proof. reflexivity. Qed.

(** The comparison [temp > TEMP_THRESHOLD] of the policy holds exactly
    when [temp] denotes a number above 30, or is the positive infinity. *)
Lemma highTemperature_above (temp : float) :
  Float.valid binary32 temp = true ->
  Float.gt temp TEMP_THRESHOLD = true <-> Float.above temp 30.
Proof.
  intros V.
  rewrite (gt_above binary32 temp TEMP_THRESHOLD V eq_refl eq_refl).
  apply above_compat, TEMP_THRESHOLD_value.
Qed.

(** ** The irrigation policy *)

(** The policy as a proposition on its three comparisons. *)
Lemma shouldIrrigate_true (moisture gas : Z) (temp : float) :
  shouldIrrigate moisture temp gas = true <->
  moisture < MOISTURE_THRESHOLD \/
  (Float.gt temp TEMP_THRESHOLD = true /\ gas > GAS_THRESHOLD).
Proof.
  unfold shouldIrrigate.
  rewrite orb_true_iff, andb_true_iff, Z.ltb_lt, Z.gtb_gt. tauto.
Qed.

(** The three scenarios of the specification. *)
Example scenario_low_moisture :
  shouldIrrigate 250 (Float.lit binary32 20 0) 100 = true.
Proof. reflexivity. Qed.

Example scenario_heat_and_gas :
  shouldIrrigate 500 (Float.lit binary32 35 0) 450 = true.
Proof. reflexivity. Qed.

Example scenario_heat_only :
  shouldIrrigate 500 (Float.lit binary32 35 0) 100 = false.
Proof. reflexivity. Qed.

(** Not-a-number and the infinities as temperature. *)
Example scenario_nan : shouldIrrigate 500 S754_nan 450 = false.
Proof. reflexivity. Qed.

Example scenario_infinity :
  shouldIrrigate 500 (S754_infinity false) 450 = true /\
  shouldIrrigate 500 (S754_infinity true) 450 = false.
Proof. split; reflexivity. Qed.

(** C1. For every integer moisture and gas and every float temperature,
    [shouldIrrigate] returns true if and only if the moisture is below
    300, or the temperature is above 30.0 and the gas above 400.  In
    particular it returns true whenever the moisture is below the
    threshold, whatever the temperature and the gas, and from the
    threshold up it returns true exactly when both secondary conditions
    hold. *)
Theorem shouldIrrigate_decision (moisture gas : Z) (temp : float) :
  Float.valid binary32 temp = true ->
  (shouldIrrigate moisture temp gas = true <->
   moisture < MOISTURE_THRESHOLD \/
   (Float.above temp 30 /\ gas > GAS_THRESHOLD)) /\
  (moisture < MOISTURE_THRESHOLD ->
   shouldIrrigate moisture temp gas = true) /\
  (moisture >= MOISTURE_THRESHOLD ->
   (shouldIrrigate moisture temp gas = true <->
    Float.above temp 30 /\ gas > GAS_THRESHOLD)).
Proof.
  intros V.
  pose proof (shouldIrrigate_true moisture gas temp) as H.
  rewrite (highTemperature_above temp V) in H.
  split; [exact H | split].
  - intros Hlow. apply H. now left.
  - intros Hhigh. rewrite H. split; [| tauto].
    intros [Hlow | Hsec]; [lia | exact Hsec].
Qed.

Lemma shouldIrrigate_decision_witness :
  Float.valid binary32 (Float.lit binary32 35 0) = true /\
  (shouldIrrigate 500 (Float.lit binary32 35 0) 450 = true <->
   500 < MOISTURE_THRESHOLD \/
   (Float.above (Float.lit binary32 35 0) 30 /\ 450 > GAS_THRESHOLD)).
Proof.
  split; [reflexivity |].
  apply (shouldIrrigate_decision 500 450 (Float.lit binary32 35 0)).
  reflexivity.
Defined.

(** C2. The three comparisons are strict.  With the moisture, the
    temperature and the gas all exactly at their thresholds the policy
    returns false; and a value exactly at its threshold never triggers
    its own condition: the moisture at 300 leaves the decision to the
    secondary conditions, the temperature at 30.0 or the gas at 400
    leaves it to the moisture. *)
Theorem shouldIrrigate_strict :
  shouldIrrigate MOISTURE_THRESHOLD TEMP_THRESHOLD GAS_THRESHOLD = false /\
  (forall (temp : float) (gas : Z),
     shouldIrrigate MOISTURE_THRESHOLD temp gas
     = Float.gt temp TEMP_THRESHOLD && (gas >? GAS_THRESHOLD)) /\
  (forall moisture gas : Z,
     shouldIrrigate moisture TEMP_THRESHOLD gas
     = (moisture <? MOISTURE_THRESHOLD)) /\
  (forall (moisture : Z) (temp : float),
     shouldIrrigate moisture temp GAS_THRESHOLD
     = (moisture <? MOISTURE_THRESHOLD)).
Proof.
  split; [reflexivity | split; [reflexivity | split]].
  - intros moisture gas. unfold shouldIrrigate.
    change (Float.gt TEMP_THRESHOLD TEMP_THRESHOLD) with false.
    now rewrite orb_false_r.
  - intros moisture temp. unfold shouldIrrigate.
    change (GAS_THRESHOLD >? GAS_THRESHOLD) with false.
    now rewrite andb_false_r, orb_false_r.
Qed.

(** C10. The policy is antitone in the moisture: when it irrigates at a
    moisture [m] it irrigates at every [m' <= m], the temperature and
    the gas being the same. *)
Theorem shouldIrrigate_antitone (m m' gas : Z) (temp : float) :
  m' <= m ->
  shouldIrrigate m temp gas = true ->
  shouldIrrigate m' temp gas = true.
Proof.
  intros Hle. rewrite !shouldIrrigate_true.
  intros [Hlow | Hsec]; [left; lia | right; exact Hsec].
Qed.

Lemma shouldIrrigate_antitone_witness :
  shouldIrrigate 120 (Float.lit binary32 20 0) 100 = true.
Proof.
  apply (shouldIrrigate_antitone 250 120 100 (Float.lit binary32 20 0)).
  - lia.
  - reflexivity.
Defined.

(** ** The temperature calibration *)

Lemma close_tob_correct (tol : Q) (x : float) (q : Q) :
  close_tob tol x q = true <-> close_to tol x q.
Proof.
  unfold close_tob, close_to. now rewrite andb_true_iff, Qle_bool_iff.
Qed.

Lemma adc_codes_spec (code : Z) : 0 <= code <= 1023 -> In code adc_codes.
Proof.
  intros H. unfold adc_codes.
  rewrite <- (Z2Nat.id code) by lia.
  apply in_map, in_seq. lia.
Qed.

Lemma calibration_all_codes (double : format) :
  double = binary32 \/ double = binary64 ->
  forallb (calibration_ok double) adc_codes = true.
Proof. intros [-> | ->]; vm_compute; reflexivity. Qed.

Lemma readTemperature_eval (A1 : Z) (double : format) (b : Board) :
  eval (readTemperature A1 double) b
  = convert double (Float.of_Z binary32 (analogIn b (conversions b) A1)).
Proof. reflexivity. Qed.

(** C3. [readTemperature] returns the value of the linear formula
    [(code * (VOLTAGE_REF / ADC_RESOLUTION) - 0.5) * 100.0] at the code
    read on the temperature pin: the float it computes is within 1/20000
    of the exact value of the formula with VOLTAGE_REF = 5 and
    ADC_RESOLUTION = 1023, for every code of the converter and for both
    formats of [double].  At code 0 the result is -50.0 and at code 1023
    it is 450.0. *)
Theorem readTemperature_formula (A1 : Z) (double : format) (b : Board) :
  double = binary32 \/ double = binary64 ->
  0 <= analogIn b (conversions b) A1 <= ADC_RESOLUTION ->
  let code := analogIn b (conversions b) A1 in
  let temperatureC := eval (readTemperature A1 double) b in
  temperatureC = convert double (Float.of_Z binary32 code) /\
  Float.valid binary32 temperatureC = true /\
  close_to (1 # 20000) temperatureC (convert_exact (inject_Z code)) /\
  (code = 0 -> temperatureC = Float.lit binary32 (-50) 0) /\
  (code = ADC_RESOLUTION -> temperatureC = Float.lit binary32 450 0).
Proof.
  intros Hd Hcode code temperatureC.
  subst temperatureC. rewrite readTemperature_eval. fold code.
  pose proof (calibration_all_codes double Hd) as Hall.
  rewrite forallb_forall in Hall.
  specialize (Hall code (adc_codes_spec code Hcode)).
  unfold calibration_ok in Hall.
  apply andb_prop in Hall. destruct Hall as [Hv Hc].
  apply close_tob_correct in Hc.
  split; [reflexivity | split; [exact Hv | split; [exact Hc | split]]].
  - intros ->. destruct Hd as [-> | ->]; vm_compute; reflexivity.
  - intros ->. destruct Hd as [-> | ->]; vm_compute; reflexivity.
Qed.

Lemma readTemperature_formula_witness :
  eval (readTemperature 15 binary32) (power_on (fun _ _ => 1023))
  = Float.lit binary32 450 0.
Proof.
  apply (readTemperature_formula 15 binary32 (power_on (fun _ _ => 1023))).
  - left. reflexivity.
  - simpl. unfold ADC_RESOLUTION. lia.
  - reflexivity.
Defined.

(** The claim that the conversion of the code 102.3 is approximately
    -50.0 fails, even with a tolerance of a whole degree, whichever the
    format of [double]. *)
Lemma convert_102_3_not_minus_50 :
  ~ close_to 1 (convert binary32 code_102_3) (-50) /\
  ~ close_to 1 (convert binary64 code_102_3) (-50).
Proof.
  split; intros [_ H]; vm_compute in H; apply H; reflexivity.
Qed.

(** C4, amended. For the input code 102.3, with VOLTAGE_REF = 5.0 and
    ADC_RESOLUTION = 1023, the conversion yields 0.0: 102.3 is the code
    of the 0.5 V offset of the sensor.  The float nearest to 102.3 is
    converted to exactly +0.0 with either format of [double], and the
    exact formula is 0 at 102.3. *)
Theorem convert_102_3_zero :
  close_to (1 # 100000) code_102_3 (1023 # 10) /\
  convert binary32 code_102_3 = S754_zero false /\
  convert binary64 code_102_3 = S754_zero false /\
  close_to 0 (convert binary32 code_102_3) 0 /\
  close_to 0 (convert binary64 code_102_3) 0 /\
  (convert_exact (1023 # 10) == 0)%Q.
Proof.
  repeat split; vm_compute; congruence.
Qed.

(** ** The actuator and the logger *)

Example DEGREE_C_bytes :
  map nat_of_ascii (list_ascii_of_string DEGREE_C) = [195; 130; 194; 176; 67]%nat.
Proof. reflexivity. Qed.

Lemma append_assoc (s1 s2 s3 : string) :
  ((s1 ++ s2) ++ s3 = s1 ++ (s2 ++ s3))%string.
Proof.
  induction s1 as [| c s1 IH]; [reflexivity |].
  change (String c ((s1 ++ s2) ++ s3) = String c (s1 ++ (s2 ++ s3)))%string.
  now f_equal.
Qed.

(** Running a sequence is running its parts one after the other. *)
Lemma exec_bind {A B : Type} (m : IO A) (k : A -> IO B) (b : Board) :
  exec (m ≫= k) b = exec (k (eval m b)) (exec m b).
Proof.
  unfold exec, eval, mbind, io_bind. now destruct (m b).
Qed.

Lemma exec_ret {A : Type} (a : A) (b : Board) : exec (mret a) b = b.
Proof. reflexivity. Qed.

(** C5. [controlIrrigation true] puts the pump pin HIGH and prints the
    line "IRRIGATION ACTIVATED"; [controlIrrigation false] puts it LOW
    and prints the line "No irrigation required".  The call does these
    two things, in this order, on every call, and changes nothing else
    on the board. *)
Theorem controlIrrigation_effect (irrigate : bool) (b : Board) :
  exec (controlIrrigation irrigate) b
  = mkBoard (analogIn b) (conversions b) (pinModes b)
      (<[WATER_PUMP_PIN := if irrigate then HIGH else LOW]> (pinLevels b))
      (serialBaud b)
      (serialOut b
       ++ (if irrigate then "IRRIGATION ACTIVATED" else "No irrigation required")
       ++ CRLF)%string
      (elapsed b)
      (history b
       ++ [DigitalWrite WATER_PUMP_PIN (if irrigate then HIGH else LOW);
           SerialWrite
             ((if irrigate then "IRRIGATION ACTIVATED"
               else "No irrigation required") ++ CRLF)])
  /\ pinLevels (exec (controlIrrigation irrigate) b) !! WATER_PUMP_PIN
     = Some (if irrigate then HIGH else LOW).
Proof.
  split.
  - destruct irrigate; unfold exec; simpl;
      rewrite <- app_assoc; reflexivity.
  - destruct irrigate; unfold exec; simpl; apply lookup_insert_eq.
Qed.

Lemma controlIrrigation_exec (irrigate : bool) (b : Board) :
  exec (controlIrrigation irrigate) b
  = mkBoard (analogIn b) (conversions b) (pinModes b)
      (<[WATER_PUMP_PIN := pump_level irrigate]> (pinLevels b))
      (serialBaud b) (serialOut b ++ status_line irrigate)%string (elapsed b)
      (history b ++ [DigitalWrite WATER_PUMP_PIN (pump_level irrigate);
                     SerialWrite (status_line irrigate)]).
Proof.
  destruct irrigate; unfold exec; simpl; rewrite <- app_assoc; reflexivity.
Qed.

(** C8. [controlIrrigation] is idempotent: a second call with the same
    boolean leaves the pump pin, and every output latch, as the first
    call left it, and prints the same status line as the first call
    did, whether or not the level changed. *)
Theorem controlIrrigation_idempotent (irrigate : bool) (b : Board) :
  let once := exec (controlIrrigation irrigate) b in
  let twice := exec (controlIrrigation irrigate) once in
  pinLevels twice = pinLevels once /\
  pinLevels twice !! WATER_PUMP_PIN = Some (pump_level irrigate) /\
  (analogIn twice, conversions twice, pinModes twice, serialBaud twice,
   elapsed twice)
  = (analogIn once, conversions once, pinModes once, serialBaud once,
     elapsed once) /\
  serialOut once = (serialOut b ++ status_line irrigate)%string /\
  serialOut twice = (serialOut once ++ status_line irrigate)%string /\
  history once
  = history b ++ [DigitalWrite WATER_PUMP_PIN (pump_level irrigate);
                  SerialWrite (status_line irrigate)] /\
  history twice
  = history once ++ [DigitalWrite WATER_PUMP_PIN (pump_level irrigate);
                     SerialWrite (status_line irrigate)].
Proof.
  intros once twice. subst twice.
  rewrite (controlIrrigation_exec irrigate once). subst once.
  rewrite (controlIrrigation_exec irrigate b). simpl.
  split; [apply insert_insert_eq | split; [apply lookup_insert_eq |]].
  repeat split; reflexivity.
Qed.

Section Logger.

Variable printInt : Z -> string.
Variable printFloat : float -> string.

Lemma logSensorData_exec (data : SensorData) (b : Board) :
  exec (logSensorData printInt printFloat data) b
  = mkBoard (analogIn b) (conversions b) (pinModes b) (pinLevels b)
      (serialBaud b)
      (serialOut b ++ LF ++ log_header ++ log_line printInt printFloat data)%string
      (elapsed b)
      (history b ++ log_events printInt printFloat data).
Proof.
  unfold exec, logSensorData, log_line, log_header, log_events; simpl.
  rewrite !append_assoc, <- !app_assoc. reflexivity.
Qed.

(** C6. For every record, [logSensorData] prints a header line and then
    one line with, in this order, the soil moisture, the temperature
    followed by the degree-Celsius marker, the gas reading, and the
    irrigation status as REQUIRED when the flag is true and NOT NEEDED
    when it is false.  Nothing else on the board changes. *)
Theorem logSensorData_output (data : SensorData) (b : Board) :
  let b' := exec (logSensorData printInt printFloat data) b in
  serialOut b'
  = (serialOut b
     ++ LF ++ "--- Sensor Data Log ---" ++ CRLF
     ++ "Soil Moisture: " ++ printInt (soilMoisture data)
     ++ " | Temperature: " ++ printFloat (temperature data) ++ DEGREE_C
     ++ " | Gas Reading: " ++ printInt (gasReading data)
     ++ " | Irrigation Status: "
     ++ (if irrigationStatus data then "REQUIRED" else "NOT NEEDED")
     ++ CRLF)%string
  /\ (analogIn b', conversions b', pinModes b', pinLevels b', serialBaud b',
      elapsed b')
     = (analogIn b, conversions b, pinModes b, pinLevels b, serialBaud b,
        elapsed b).
Proof.
  intros b'. subst b'. rewrite logSensorData_exec. simpl serialOut.
  split; [| reflexivity].
  unfold log_header, log_line. rewrite !append_assoc. reflexivity.
Qed.

End Logger.

(** ** The loop and the whole sketch *)

Lemma exec_repeat_io_succ (n : nat) (body : IO unit) (b : Board) :
  exec (repeat_io (S n) body) b = exec body (exec (repeat_io n body) b).
Proof.
  revert b. induction n as [| n IH]; intros b.
  - simpl repeat_io. rewrite exec_bind. reflexivity.
  - change (repeat_io (S (S n)) body) with (body ;; repeat_io (S n) body).
    rewrite exec_bind, IH.
    change (repeat_io (S n) body) with (body ;; repeat_io n body).
    rewrite (exec_bind body). reflexivity.
Qed.

Section Program.

Variables A0 A1 A2 : Z.
Variable double : format.
Variable printInt : Z -> string.
Variable printFloat : float -> string.

Local Abbreviation the_setup := (setup A0 A1 A2).
Local Abbreviation the_sample := (sample A0 A1 A2 double).
Local Abbreviation the_log := (logSensorData printInt printFloat).
Local Abbreviation the_loop := (loop A0 A1 A2 double printInt printFloat).
Local Abbreviation the_sketch := (sketch A0 A1 A2 double printInt printFloat).
Local Abbreviation the_snapshot := (snapshot A0 A1 A2 double).
Local Abbreviation the_cycle :=
  (cycle_events A0 A1 A2 double printInt printFloat).
Local Abbreviation the_cycles :=
  (cycles A0 A1 A2 double printInt printFloat).

Lemma sample_eval (b : Board) :
  eval the_sample b = the_snapshot (analogIn b) (conversions b).
Proof. reflexivity. Qed.

Lemma sample_exec (b : Board) :
  exec the_sample b
  = mkBoard (analogIn b) (3 + conversions b) (pinModes b) (pinLevels b)
      (serialBaud b) (serialOut b) (elapsed b)
      (history b
       ++ [ AnalogRead A0 (analogIn b (conversions b) A0);
            AnalogRead A1 (analogIn b (S (conversions b)) A1);
            AnalogRead A2 (analogIn b (S (S (conversions b))) A2) ]).
Proof.
  unfold exec, sample; simpl. rewrite <- !app_assoc. reflexivity.
Qed.

(** [loop] is the three reads followed by the log, the pump and the
    wait, all on the record the reads produced. *)
Lemma loop_steps (b : Board) :
  exec the_loop b
  = exec (delay SAMPLING_INTERVAL)
      (exec (controlIrrigation (irrigationStatus (eval the_sample b)))
         (exec (the_log (eval the_sample b)) (exec the_sample b))).
Proof.
  unfold loop, sample.
  unfold exec, eval, mbind, io_bind, mret, io_ret.
  unfold readSoilMoisture, readTemperature, readGasSensor, analogRead.
  unfold mbind, io_bind, mret, io_ret. cbn [fst snd].
  set (st := shouldIrrigate _ _ _).
  destruct (logSensorData _ _ _ _) as [[] b1].
  cbn [fst snd irrigationStatus].
  destruct (controlIrrigation st b1) as [[] b2]. reflexivity.
Qed.

(** The board after one iteration. *)
Lemma loop_exec (b : Board) :
  let data := the_snapshot (analogIn b) (conversions b) in
  exec the_loop b
  = mkBoard (analogIn b) (3 + conversions b) (pinModes b)
      (<[WATER_PUMP_PIN := pump_level (irrigationStatus data)]> (pinLevels b))
      (serialBaud b)
      (serialOut b ++ LF ++ log_header ++ log_line printInt printFloat data
       ++ status_line (irrigationStatus data))%string
      (elapsed b + SAMPLING_INTERVAL)
      (history b ++ the_cycle (analogIn b) (conversions b)).
Proof.
  intros data. rewrite loop_steps, sample_eval. fold data.
  rewrite sample_exec, logSensorData_exec, controlIrrigation_exec.
  unfold exec, delay, cycle_events; simpl. fold data.
  rewrite !append_assoc, <- !app_assoc. reflexivity.
Qed.

(** C9. In every iteration of [loop] the record given to
    [logSensorData] and the boolean given to [controlIrrigation] agree:
    the record holds the three readings of the iteration, its
    [irrigationStatus] is [shouldIrrigate] of its own three fields, and
    [controlIrrigation] receives that same boolean.  So the status
    printed in the log and the level put on the pump pin come from one
    decision. *)
Theorem loop_snapshot_consistent (b : Board) :
  exists (data : SensorData) (sampled : Board),
    soilMoisture data = analogIn b (conversions b) A0 /\
    temperature data
    = convert double
        (Float.of_Z binary32 (analogIn b (S (conversions b)) A1)) /\
    gasReading data = analogIn b (S (S (conversions b))) A2 /\
    sampled = exec the_sample b /\
    exec the_loop b
    = exec (delay SAMPLING_INTERVAL)
        (exec (controlIrrigation (irrigationStatus data))
           (exec (the_log data) sampled)) /\
    irrigationStatus data
    = shouldIrrigate (soilMoisture data) (temperature data) (gasReading data) /\
    serialOut (exec the_loop b)
    = (serialOut b ++ LF ++ log_header ++ log_line printInt printFloat data
       ++ status_line (irrigationStatus data))%string /\
    pinLevels (exec the_loop b) !! WATER_PUMP_PIN
    = Some (pump_level (irrigationStatus data)).
Proof.
  exists (eval the_sample b), (exec the_sample b).
  split; [reflexivity | split; [reflexivity | split; [reflexivity |]]].
  split; [reflexivity | split; [apply loop_steps |]].
  split; [reflexivity |].
  rewrite loop_exec, sample_eval. simpl.
  split; [reflexivity | apply lookup_insert_eq].
Qed.

(** The board after [setup]. *)
Lemma setup_exec (b : Board) :
  exec the_setup b
  = mkBoard (analogIn b) (conversions b)
      (<[WATER_PUMP_PIN := OUTPUT]>
         (<[A2 := INPUT]> (<[A1 := INPUT]> (<[A0 := INPUT]> (pinModes b)))))
      (<[WATER_PUMP_PIN := LOW]> (pinLevels b))
      (Some 9600)
      (serialOut b
       ++ "Edge Computing Irrigation Monitoring System" ++ CRLF
       ++ "-------------------------------------------" ++ CRLF)%string
      (elapsed b)
      (history b ++ setup_events A0 A1 A2).
Proof.
  unfold exec, setup, setup_events; simpl.
  rewrite !append_assoc, <- !app_assoc. reflexivity.
Qed.

Lemma cycles_succ (inputs : nat -> Z -> Z) (k n : nat) :
  the_cycles inputs k (S n)
  = the_cycles inputs k n ++ the_cycle inputs (k + 3 * n)%nat.
Proof.
  unfold cycles. rewrite seq_S, map_app, concat_app.
  cbn [map concat Nat.add]. now rewrite app_nil_r.
Qed.

(** The iterations never open the serial port or set a pin direction. *)
Lemma cycles_no_setup_call (inputs : nat -> Z -> Z) (k n : nat) :
  forallb (fun e => negb (is_setup_call e)) (the_cycles inputs k n) = true.
Proof.
  induction n as [| n IH]; [reflexivity |].
  rewrite cycles_succ, forallb_app, IH. reflexivity.
Qed.

(** What [n] iterations leave on the board. *)
Lemma repeat_loop_exec (n : nat) (b : Board) :
  let b' := exec (repeat_io n the_loop) b in
  analogIn b' = analogIn b /\
  conversions b' = (conversions b + 3 * n)%nat /\
  pinModes b' = pinModes b /\
  serialBaud b' = serialBaud b /\
  elapsed b' = elapsed b + SAMPLING_INTERVAL * Z.of_nat n /\
  history b' = history b ++ the_cycles (analogIn b) (conversions b) n.
Proof.
  induction n as [| n IH]; intros b'.
  - subst b'. unfold exec, cycles. cbn [repeat_io mret io_ret snd seq map concat].
    rewrite app_nil_r. repeat split; lia.
  - subst b'. rewrite exec_repeat_io_succ.
    destruct IH as (Hin & Hc & Hm & Hb & He & Hh).
    rewrite loop_exec.
    cbn [analogIn conversions pinModes serialBaud elapsed history].
    rewrite Hin, Hc, Hm, Hb, He, Hh, cycles_succ, <- app_assoc.
    repeat split; lia.
Qed.

(** C7. [setup] runs once, before the first iteration: it opens the
    serial port, makes the three sensor pins inputs and the pump pin an
    output, puts the pump pin LOW and prints the two lines of the
    banner.  After it every iteration of [loop] reads the three sensors,
    then logs the record with the decision of the policy, then drives
    the pump and prints its status, then waits SAMPLING_INTERVAL, in
    this order; the next iteration starts after the wait, and no
    iteration repeats a call of the initialization. *)
Theorem sketch_order (n : nat) (b : Board) :
  exec the_setup b
  = mkBoard (analogIn b) (conversions b)
      (<[WATER_PUMP_PIN := OUTPUT]>
         (<[A2 := INPUT]> (<[A1 := INPUT]> (<[A0 := INPUT]> (pinModes b)))))
      (<[WATER_PUMP_PIN := LOW]> (pinLevels b))
      (Some 9600)
      (serialOut b
       ++ "Edge Computing Irrigation Monitoring System" ++ CRLF
       ++ "-------------------------------------------" ++ CRLF)%string
      (elapsed b)
      (history b ++ setup_events A0 A1 A2)
  /\ exec (the_sketch 0) b = exec the_setup b
  /\ exec (the_sketch (S n)) b = exec the_loop (exec (the_sketch n) b)
  /\ history (exec (the_sketch n) b)
     = history b ++ setup_events A0 A1 A2
       ++ concat (map (fun i => the_cycle (analogIn b) (conversions b + 3 * i)%nat)
                    (seq 0 n))
  /\ forallb (fun e => negb (is_setup_call e))
       (concat (map (fun i => the_cycle (analogIn b) (conversions b + 3 * i)%nat)
                  (seq 0 n))) = true
  /\ elapsed (exec (the_sketch n) b)
     = elapsed b + SAMPLING_INTERVAL * Z.of_nat n.
Proof.
  assert (Hsk : forall k, exec (the_sketch k) b
                          = exec (repeat_io k the_loop) (exec the_setup b)).
  { intros k. unfold sketch. now rewrite exec_bind. }
  split; [apply setup_exec | split; [| split]].
  - rewrite Hsk. cbn [repeat_io]. apply exec_ret.
  - rewrite !Hsk. apply exec_repeat_io_succ.
  - rewrite Hsk.
    destruct (repeat_loop_exec n (exec the_setup b))
      as (_ & _ & _ & _ & He & Hh).
    rewrite He, Hh, setup_exec.
    cbn [analogIn conversions elapsed history].
    rewrite <- app_assoc.
    split; [reflexivity | split; [apply cycles_no_setup_call | reflexivity]].
Qed.

End Program.

(** * Further properties of the sketch *)

(** ** The float order, continued *)

Lemma SFcompare_antisym (x y : float) :
  SFcompare y x = option_map CompOpp (SFcompare x y).
Proof.
  destruct x as [[] | [] | | [] mx ex], y as [[] | [] | | [] my ey];
    try reflexivity; simpl;
    rewrite (Z.compare_antisym ex ey);
    change (Pos.compare_cont Eq my mx) with (Pos.compare my mx);
    change (Pos.compare_cont Eq mx my) with (Pos.compare mx my);
    rewrite (Pos.compare_antisym mx my);
    destruct (ex ?= ey); try reflexivity;
    destruct (mx ?= my)%positive; reflexivity.
Qed.

(** The C++ [x <= y] on two finite floats gives the order of the numbers. *)
Lemma le_finite_correct (f : format) (x y : float) :
  Float.valid f x = true -> Float.valid f y = true ->
  Float.is_finite x = true -> Float.is_finite y = true ->
  SFleb x y = true -> (Float.to_Q x <= Float.to_Q y)%Q.
Proof.
  intros Vx Vy Fx Fy Hle. apply Qnot_lt_le. intros Hlt.
  apply (lt_finite_correct f y x Vy Vx Fy Fx) in Hlt.
  unfold Float.lt, SFltb in Hlt. unfold SFleb in Hle.
  rewrite SFcompare_antisym in Hlt.
  destruct (SFcompare x y) as [[] |]; simpl in Hlt; discriminate.
Qed.

(** A float at least a float above [q] is above [q]. *)
Lemma above_le (f : format) (x y : float) (q : Q) :
  Float.valid f x = true -> Float.valid f y = true ->
  SFleb x y = true -> Float.above x q -> Float.above y q.
Proof.
  intros Vx Vy Hle Hx.
  destruct x as [sx | sx | | sx mx ex] eqn:Ex, y as [sy | sy | | sy my ey] eqn:Ey;
    try discriminate Hle; try contradiction;
    try (simpl in Hx; subst sx; destruct sy; try discriminate Hle; reflexivity);
    try (destruct sy; [discriminate Hle | reflexivity]);
    try (destruct sy; [destruct sx; discriminate Hle | reflexivity]).
  all: unfold Float.above in *;
    apply (Qlt_le_trans _ _ _ Hx);
    apply (le_finite_correct f); auto.
Qed.

(** ** The policy is monotone in each reading *)

(** X1. An irrigation decision survives a lower moisture, a higher
    temperature and a higher gas reading: from [shouldIrrigate m t g]
    true, with [m' <= m], [t <= t'] as floats and [g <= g'],
    [shouldIrrigate m' t' g'] is true. *)
Theorem shouldIrrigate_monotone (m m' g g' : Z) (t t' : float) :
  Float.valid binary32 t = true ->
  Float.valid binary32 t' = true ->
  m' <= m ->
  SFleb t t' = true ->
  g <= g' ->
  shouldIrrigate m t g = true ->
  shouldIrrigate m' t' g' = true.
Proof.
  intros Vt Vt' Hm Ht Hg.
  rewrite !shouldIrrigate_true.
  intros [Hlow | [Hhot Hgas]]; [left; lia | right].
  split; [| lia].
  apply (highTemperature_above t' Vt').
  apply (above_le binary32 t t' 30 Vt Vt' Ht).
  now apply (highTemperature_above t Vt).
Qed.

Lemma shouldIrrigate_monotone_witness :
  shouldIrrigate 450 (Float.lit binary32 40 0) 600 = true.
Proof.
  apply (shouldIrrigate_monotone 500 450 450 600
           (Float.lit binary32 35 0) (Float.lit binary32 40 0)).
  - reflexivity.
  - reflexivity.
  - lia.
  - reflexivity.
  - lia.
  - reflexivity.
Defined.

(** ** The calibration over the range of the converter *)

Lemma calibration_valid (double : format) (code : Z) :
  double = binary32 \/ double = binary64 ->
  0 <= code <= ADC_RESOLUTION ->
  Float.valid binary32 (temperature_of double code) = true /\
  Float.is_finite (temperature_of double code) = true.
Proof.
  intros Hd Hcode.
  pose proof (calibration_all_codes double Hd) as Hall.
  rewrite forallb_forall in Hall.
  specialize (Hall code (adc_codes_spec code Hcode)).
  unfold calibration_ok, close_tob in Hall. fold (temperature_of double code) in Hall.
  now apply andb_prop in Hall as [Hv [Hf _]%andb_prop].
Qed.

Lemma step_all_codes (double : format) :
  double = binary32 \/ double = binary64 ->
  forallb (step_ok double) (map Z.of_nat (seq 0 1023)) = true.
Proof. intros [-> | ->]; vm_compute; reflexivity. Qed.

(** One code more, a higher temperature. *)
Lemma calibration_step (double : format) (code : Z) :
  double = binary32 \/ double = binary64 ->
  0 <= code < ADC_RESOLUTION ->
  (Float.to_Q (temperature_of double code)
   < Float.to_Q (temperature_of double (code + 1)))%Q.
Proof.
  intros Hd Hcode. unfold ADC_RESOLUTION in Hcode.
  pose proof (step_all_codes double Hd) as Hall.
  rewrite forallb_forall in Hall.
  assert (Hin : In code (map Z.of_nat (seq 0 1023))).
  { rewrite <- (Z2Nat.id code) by lia. apply in_map, in_seq. lia. }
  specialize (Hall code Hin). unfold step_ok in Hall.
  destruct (calibration_valid double code Hd) as [V1 F1];
    [unfold ADC_RESOLUTION; lia |].
  destruct (calibration_valid double (code + 1) Hd) as [V2 F2];
    [unfold ADC_RESOLUTION; lia |].
  now apply (lt_finite_correct binary32 _ _ V1 V2 F1 F2).
Qed.

Lemma calibration_increasing_Q (double : format) (n : nat) (c1 : Z) :
  double = binary32 \/ double = binary64 ->
  0 <= c1 -> c1 + 1 + Z.of_nat n <= ADC_RESOLUTION ->
  (Float.to_Q (temperature_of double c1)
   < Float.to_Q (temperature_of double (c1 + 1 + Z.of_nat n)))%Q.
Proof.
  intros Hd H0. induction n as [| n IH]; intros Hn.
  - rewrite Z.add_0_r. apply calibration_step; [exact Hd | lia].
  - apply Qlt_trans with (Float.to_Q (temperature_of double (c1 + 1 + Z.of_nat n))).
    + apply IH. lia.
    + replace (c1 + 1 + Z.of_nat (S n)) with (c1 + 1 + Z.of_nat n + 1) by lia.
      apply calibration_step; [exact Hd | lia].
Qed.

Lemma calibration_lt_Q (double : format) (c1 c2 : Z) :
  double = binary32 \/ double = binary64 ->
  0 <= c1 -> c1 < c2 -> c2 <= ADC_RESOLUTION ->
  (Float.to_Q (temperature_of double c1)
   < Float.to_Q (temperature_of double c2))%Q.
Proof.
  intros Hd H0 Hlt Hmax.
  replace c2 with (c1 + 1 + Z.of_nat (Z.to_nat (c2 - c1 - 1))) by lia.
  apply calibration_increasing_Q; [exact Hd | exact H0 | lia].
Qed.

(** X2. Over the codes 0..1023 the temperature [readTemperature]
    computes is strictly increasing in the code, for both formats of
    [double]: a higher code always gives a float that compares greater,
    so two different codes never give the same temperature. *)
Theorem calibration_increasing (double : format) (c1 c2 : Z) :
  double = binary32 \/ double = binary64 ->
  0 <= c1 -> c1 < c2 -> c2 <= ADC_RESOLUTION ->
  Float.lt (temperature_of double c1) (temperature_of double c2) = true /\
  (Float.to_Q (temperature_of double c1)
   < Float.to_Q (temperature_of double c2))%Q.
Proof.
  intros Hd H0 Hlt Hmax.
  pose proof (calibration_lt_Q double c1 c2 Hd H0 Hlt Hmax) as HQ.
  split; [| exact HQ].
  destruct (calibration_valid double c1 Hd) as [V1 F1]; [lia |].
  destruct (calibration_valid double c2 Hd) as [V2 F2]; [lia |].
  now apply (lt_finite_correct binary32 _ _ V1 V2 F1 F2).
Qed.

Lemma calibration_increasing_witness :
  Float.lt (temperature_of binary32 163) (temperature_of binary32 164) = true /\
  (Float.to_Q (temperature_of binary32 163)
   < Float.to_Q (temperature_of binary32 164))%Q.
Proof.
  apply (calibration_increasing binary32 163 164).
  - left. reflexivity.
  - lia.
  - lia.
  - unfold ADC_RESOLUTION. lia.
Defined.

(** X3. Over the codes 0..1023 the temperature stays between -50 and
    450 degrees, the values at the two ends of the converter. *)
Theorem calibration_range (double : format) (code : Z) :
  double = binary32 \/ double = binary64 ->
  0 <= code <= ADC_RESOLUTION ->
  (-50 <= Float.to_Q (temperature_of double code) <= 450)%Q.
Proof.
  intros Hd Hcode.
  assert (Hlo : (Float.to_Q (temperature_of double 0) == -50)%Q)
    by (destruct Hd as [-> | ->]; vm_compute; reflexivity).
  assert (Hhi : (Float.to_Q (temperature_of double ADC_RESOLUTION) == 450)%Q)
    by (destruct Hd as [-> | ->]; vm_compute; reflexivity).
  split.
  - destruct (Z.eq_dec code 0) as [-> | Hne].
    + rewrite Hlo. apply Qle_refl.
    + rewrite <- Hlo. apply Qlt_le_weak.
      apply (calibration_lt_Q double 0 code); auto; lia.
  - destruct (Z.eq_dec code ADC_RESOLUTION) as [-> | Hne].
    + rewrite Hhi. apply Qle_refl.
    + rewrite <- Hhi. apply Qlt_le_weak.
      apply (calibration_lt_Q double code ADC_RESOLUTION); auto; lia.
Qed.

Lemma calibration_range_witness :
  (-50 <= Float.to_Q (temperature_of binary64 512) <= 450)%Q.
Proof.
  apply (calibration_range binary64 512).
  - right. reflexivity.
  - unfold ADC_RESOLUTION. lia.
Defined.

Lemma threshold_all_codes (double : format) :
  double = binary32 \/ double = binary64 ->
  forallb (threshold_ok double) adc_codes = true.
Proof. intros [-> | ->]; vm_compute; reflexivity. Qed.

(** X4. In analog codes the temperature threshold is 164: for a code of
    the converter, the temperature [readTemperature] computes is above
    TEMP_THRESHOLD exactly when the code is 164 or more (about 0.8 V),
    for both formats of [double]. *)
Theorem threshold_in_codes (double : format) (code : Z) :
  double = binary32 \/ double = binary64 ->
  0 <= code <= ADC_RESOLUTION ->
  Float.gt (temperature_of double code) TEMP_THRESHOLD = true <-> HOT_CODE <= code.
Proof.
  intros Hd Hcode.
  pose proof (threshold_all_codes double Hd) as Hall.
  rewrite forallb_forall in Hall.
  specialize (Hall code (adc_codes_spec code Hcode)).
  unfold threshold_ok in Hall. apply Bool.eqb_prop in Hall.
  rewrite Hall. apply Z.leb_le.
Qed.

Lemma threshold_in_codes_witness :
  Float.gt (temperature_of binary32 200) TEMP_THRESHOLD = true <-> HOT_CODE <= 200.
Proof.
  apply (threshold_in_codes binary32 200).
  - left. reflexivity.
  - unfold ADC_RESOLUTION. lia.
Defined.

Lemma platforms_all_codes : forallb platforms_ok adc_codes = true.
Proof. vm_compute. reflexivity. Qed.

(** X5. The format of [double] hardly matters: on every code of the
    converter the temperature computed with a 32-bit [double] and the
    one computed with a 64-bit [double] are within 2^-18 of a degree of
    each other (they do differ on some codes, 4 for one). *)
Theorem platforms_agree (code : Z) :
  0 <= code <= ADC_RESOLUTION ->
  (Qabs (Float.to_Q (temperature_of binary32 code)
         - Float.to_Q (temperature_of binary64 code))
   <= 1 # 262144)%Q.
Proof.
  intros Hcode.
  pose proof platforms_all_codes as Hall.
  rewrite forallb_forall in Hall.
  specialize (Hall code (adc_codes_spec code Hcode)).
  now apply Qle_bool_iff in Hall.
Qed.

Lemma platforms_agree_witness :
  (Qabs (Float.to_Q (temperature_of binary32 4)
         - Float.to_Q (temperature_of binary64 4))
   <= 1 # 262144)%Q /\
  temperature_of binary32 4 <> temperature_of binary64 4.
Proof.
  split.
  - apply (platforms_agree 4). unfold ADC_RESOLUTION. lia.
  - vm_compute. discriminate.
Defined.

(** ** The actuator, continued *)

(** X6. Two calls of [controlIrrigation] in a row: the pump pin, and
    every output latch, is as the second call alone would leave it,
    whatever the first call asked; both status lines are printed, in the
    order of the calls. *)
Theorem controlIrrigation_last_wins (first second : bool) (b : Board) :
  let b' := exec (controlIrrigation second) (exec (controlIrrigation first) b) in
  pinLevels b' = pinLevels (exec (controlIrrigation second) b) /\
  pinLevels b' !! WATER_PUMP_PIN = Some (pump_level second) /\
  serialOut b'
  = (serialOut b ++ status_line first ++ status_line second)%string.
Proof.
  intros b'. subst b'. rewrite !controlIrrigation_exec.
  cbn [pinLevels serialOut].
  split; [apply insert_insert_eq | split; [apply lookup_insert_eq |]].
  apply append_assoc.
Qed.

(** ** The run of the sketch *)

Lemma cat_all_snoc (texts : list string) (text : string) :
  cat_all (texts ++ [text]) = (cat_all texts ++ text)%string.
Proof.
  induction texts as [| t texts IH].
  - simpl. induction text as [| c text IHt]; [reflexivity |].
    change (String c (text ++ "") = String c text)%string. now f_equal.
  - change (t ++ cat_all (texts ++ [text]) = (t ++ cat_all texts) ++ text)%string.
    now rewrite IH, append_assoc.
Qed.

Lemma append_empty_r (text : string) : (text ++ "")%string = text.
Proof.
  induction text as [| c text IH]; [reflexivity |].
  change (String c (text ++ "") = String c text)%string. now f_equal.
Qed.

Section Run.

Variables A0 A1 A2 : Z.
Variable double : format.
Variable printInt : Z -> string.
Variable printFloat : float -> string.

Local Abbreviation the_setup := (setup A0 A1 A2).
Local Abbreviation the_loop := (loop A0 A1 A2 double printInt printFloat).
Local Abbreviation the_sketch := (sketch A0 A1 A2 double printInt printFloat).
Local Abbreviation the_snapshot := (snapshot A0 A1 A2 double).
Local Abbreviation the_text :=
  (cycle_text A0 A1 A2 double printInt printFloat).

Lemma sketch_exec (n : nat) (b : Board) :
  exec (the_sketch n) b = exec (repeat_io n the_loop) (exec the_setup b).
Proof. unfold sketch. now rewrite exec_bind. Qed.

(** The decision of an iteration in the codes it reads. *)
Lemma snapshot_status (inputs : nat -> Z -> Z) (k : nat) :
  double = binary32 \/ double = binary64 ->
  0 <= inputs (S k) A1 <= ADC_RESOLUTION ->
  irrigationStatus (the_snapshot inputs k) = true <->
  inputs k A0 < MOISTURE_THRESHOLD \/
  (HOT_CODE <= inputs (S k) A1 /\ inputs (S (S k)) A2 > GAS_THRESHOLD).
Proof.
  intros Hd Hcode. unfold snapshot. cbn [irrigationStatus].
  rewrite shouldIrrigate_true.
  fold (temperature_of double (inputs (S k) A1)).
  pose proof (threshold_all_codes double Hd) as Hall.
  rewrite forallb_forall in Hall.
  specialize (Hall _ (adc_codes_spec _ Hcode)).
  unfold threshold_ok in Hall. apply Bool.eqb_prop in Hall.
  now rewrite Hall, Z.leb_le.
Qed.

Lemma loop_pump (b : Board) :
  pinLevels (exec the_loop b) !! WATER_PUMP_PIN
  = Some (pump_level
            (irrigationStatus (the_snapshot (analogIn b) (conversions b)))).
Proof. rewrite loop_exec. cbn [pinLevels]. apply lookup_insert_eq. Qed.

(** X7. One iteration of [loop] in raw codes: with a temperature code
    of the converter, the pump pin is HIGH after the iteration exactly
    when the moisture code read is below 300, or the temperature code
    is 164 or more and the gas code is above 400.  The moisture and the
    gas are compared as read, without any conversion. *)
Theorem loop_pump_from_codes (b : Board) :
  double = binary32 \/ double = binary64 ->
  0 <= analogIn b (S (conversions b)) A1 <= ADC_RESOLUTION ->
  pinLevels (exec the_loop b) !! WATER_PUMP_PIN = Some HIGH <->
  analogIn b (conversions b) A0 < MOISTURE_THRESHOLD \/
  (HOT_CODE <= analogIn b (S (conversions b)) A1 /\
   analogIn b (S (S (conversions b))) A2 > GAS_THRESHOLD).
Proof.
  intros Hd Hcode.
  rewrite loop_pump, <- (snapshot_status (analogIn b) (conversions b) Hd Hcode).
  destruct (irrigationStatus _); simpl; split; congruence.
Qed.

(** X8. [loop] keeps no memory: two boards on which the three
    conversions of the iteration yield the same codes end the iteration
    with the same level on the pump pin and have printed the same text,
    whatever the pump, the serial output and the clock were before. *)
Theorem loop_memoryless (b1 b2 : Board) :
  analogIn b1 (conversions b1) A0 = analogIn b2 (conversions b2) A0 ->
  analogIn b1 (S (conversions b1)) A1 = analogIn b2 (S (conversions b2)) A1 ->
  analogIn b1 (S (S (conversions b1))) A2
  = analogIn b2 (S (S (conversions b2))) A2 ->
  pinLevels (exec the_loop b1) !! WATER_PUMP_PIN
  = pinLevels (exec the_loop b2) !! WATER_PUMP_PIN /\
  exists text : string,
    serialOut (exec the_loop b1) = (serialOut b1 ++ text)%string /\
    serialOut (exec the_loop b2) = (serialOut b2 ++ text)%string.
Proof.
  intros H0 H1 H2.
  assert (Hs : the_snapshot (analogIn b1) (conversions b1)
               = the_snapshot (analogIn b2) (conversions b2)).
  { unfold snapshot. now rewrite H0, H1, H2. }
  rewrite !loop_pump, Hs. split; [reflexivity |].
  exists (the_text (analogIn b2) (conversions b2)).
  rewrite !loop_exec. cbn [serialOut]. unfold cycle_text.
  rewrite Hs. split; reflexivity.
Qed.

(** The pins an iteration does not write. *)
Lemma repeat_loop_levels (n : nat) (b : Board) (pin : Z) :
  pin <> WATER_PUMP_PIN ->
  pinLevels (exec (repeat_io n the_loop) b) !! pin = pinLevels b !! pin.
Proof.
  intros Hpin. induction n as [| n IH]; [reflexivity |].
  rewrite exec_repeat_io_succ, loop_exec. cbn [pinLevels].
  rewrite lookup_insert_ne by congruence. exact IH.
Qed.

(** X9. What holds on the board after [setup] and after every
    iteration: the pump pin is an output, each sensor pin other than
    pin 7 is an input, the other pins keep their direction, no pin but
    the pump pin has its level changed, the serial port is at 9600 baud,
    and three conversions were made per iteration. *)
Theorem sketch_invariant (n : nat) (b : Board) :
  let b' := exec (the_sketch n) b in
  pinModes b' !! WATER_PUMP_PIN = Some OUTPUT /\
  (forall pin : Z,
     pin <> WATER_PUMP_PIN -> pin = A0 \/ pin = A1 \/ pin = A2 ->
     pinModes b' !! pin = Some INPUT) /\
  (forall pin : Z,
     pin <> WATER_PUMP_PIN -> pin <> A0 -> pin <> A1 -> pin <> A2 ->
     pinModes b' !! pin = pinModes b !! pin) /\
  (forall pin : Z,
     pin <> WATER_PUMP_PIN -> pinLevels b' !! pin = pinLevels b !! pin) /\
  serialBaud b' = Some 9600 /\
  analogIn b' = analogIn b /\
  conversions b' = (conversions b + 3 * n)%nat.
Proof.
  intros b'. subst b'. rewrite sketch_exec.
  destruct (repeat_loop_exec A0 A1 A2 double printInt printFloat n
              (exec the_setup b)) as (Hin & Hc & Hm & Hb & _ & _).
  rewrite Hin, Hc, Hm, Hb, setup_exec.
  cbn [analogIn conversions pinModes serialBaud].
  split; [apply lookup_insert_eq |].
  split.
  { intros pin Hpump Hpin. rewrite lookup_insert_ne by congruence.
    destruct (decide (A2 = pin)) as [-> | N2];
      [apply lookup_insert_eq | rewrite lookup_insert_ne by exact N2].
    destruct (decide (A1 = pin)) as [-> | N1];
      [apply lookup_insert_eq | rewrite lookup_insert_ne by exact N1].
    destruct (decide (A0 = pin)) as [-> | N0];
      [apply lookup_insert_eq | exfalso; intuition congruence]. }
  split.
  { intros pin Hpump N0 N1 N2. now rewrite !lookup_insert_ne by congruence. }
  split; [| repeat split; reflexivity].
  intros pin Hpump. rewrite repeat_loop_levels by exact Hpump.
  cbn [pinLevels]. now rewrite lookup_insert_ne by congruence.
Qed.

(** X10. The pump pin follows the last decision: it is LOW after
    [setup], and after each iteration it is HIGH or LOW as the policy
    decided on the three codes of that iteration, and stays so through
    the wait. *)
Theorem pump_follows_last_decision (n : nat) (b : Board) :
  pinLevels (exec (the_sketch n) b) !! WATER_PUMP_PIN
  = Some match n with
         | O => LOW
         | S k => pump_level
                    (irrigationStatus
                       (the_snapshot (analogIn b) (conversions b + 3 * k)))
         end.
Proof.
  rewrite sketch_exec. destruct n as [| k].
  - cbn [repeat_io]. rewrite exec_ret, setup_exec. cbn [pinLevels].
    apply lookup_insert_eq.
  - rewrite exec_repeat_io_succ, loop_pump.
    destruct (repeat_loop_exec A0 A1 A2 double printInt printFloat k
                (exec the_setup b)) as (Hin & Hc & _).
    rewrite Hin, Hc, setup_exec. reflexivity.
Qed.

Lemma repeat_loop_serial (n : nat) (b : Board) :
  serialOut (exec (repeat_io n the_loop) b)
  = (serialOut b
     ++ cat_all (map (fun i => the_text (analogIn b) (conversions b + 3 * i)%nat)
                   (seq 0 n)))%string.
Proof.
  induction n as [| n IH].
  - cbn [repeat_io seq map cat_all fold_right].
    now rewrite exec_ret, append_empty_r.
  - rewrite exec_repeat_io_succ, loop_exec. cbn [serialOut].
    destruct (repeat_loop_exec A0 A1 A2 double printInt printFloat n b)
      as (Hin & Hc & _).
    rewrite Hin, Hc, IH, seq_S, map_app. cbn [map Nat.add].
    rewrite cat_all_snoc, append_assoc. reflexivity.
Qed.

(** X11. The serial output of the whole run: after [n] iterations it is
    what was there before, then the two lines of the banner, then for
    each iteration in turn the blank line, the header, the data line
    and the status line of that iteration.  Nothing is ever printed in
    between and nothing already printed changes. *)
Theorem sketch_serial (n : nat) (b : Board) :
  serialOut (exec (the_sketch n) b)
  = (serialOut b ++ banner
     ++ cat_all (map (fun i => the_text (analogIn b) (conversions b + 3 * i)%nat)
                   (seq 0 n)))%string.
Proof.
  rewrite sketch_exec, repeat_loop_serial, setup_exec.
  cbn [serialOut analogIn conversions]. unfold banner.
  now rewrite !append_assoc.
Qed.

End Run.

Lemma loop_pump_from_codes_witness :
  pinLevels
    (exec (loop 14 15 16 binary32 (fun _ => EmptyString) (fun _ => EmptyString))
       (power_on (fun _ _ => 500)))
  !! WATER_PUMP_PIN = Some HIGH <->
  500 < MOISTURE_THRESHOLD \/ (HOT_CODE <= 500 /\ 500 > GAS_THRESHOLD).
Proof.
  apply (loop_pump_from_codes 14 15 16 binary32
           (fun _ => EmptyString) (fun _ => EmptyString)
           (power_on (fun _ _ => 500))).
  - left. reflexivity.
  - simpl. unfold ADC_RESOLUTION. lia.
Defined.

Lemma loop_memoryless_witness :
  let b1 := power_on (fun _ _ => 500) in
  let b2 := exec (controlIrrigation false) b1 in
  let run := exec (loop 14 15 16 binary32 (fun _ => EmptyString)
                     (fun _ => EmptyString)) in
  pinLevels (run b1) !! WATER_PUMP_PIN = pinLevels (run b2) !! WATER_PUMP_PIN /\
  exists text : string,
    serialOut (run b1) = (serialOut b1 ++ text)%string /\
    serialOut (run b2) = (serialOut b2 ++ text)%string.
Proof.
  apply (loop_memoryless 14 15 16 binary32
           (fun _ => EmptyString) (fun _ => EmptyString)
           (power_on (fun _ _ => 500))
           (exec (controlIrrigation false) (power_on (fun _ _ => 500))));
    reflexivity.
Defined.
